(** * hwbp: hardware breakpoints through the x64 debug registers

    A shallow embedding of [src/hwbp.h] and of the [dr7] union of
    [src/unnamed/part_000] (dr.h).

    - The [dr7] union is modelled as its storage word [flags] (a 64-bit
      value held in [Z]); each bit field of the anonymous struct is read and
      written by shift and mask at the offset and width given in dr.h, which
      is what the compiler emits for [_dr7.field] and [_dr7.field = v].
    - The Win32 primitives used by [bp_enable] and [bp_disable]
      ([OpenThread], [SuspendThread], [GetThreadContext], [SetThreadContext],
      [ResumeThread], [CloseHandle]) act on an explicit OS state: one target
      thread with its debug-register context, a set of injected faults and a
      log of the calls made. The functions of hwbp.h run in a small state
      monad over it. *)

From Stdlib Require Import ZArith Bool List Lia.
Import ListNotations.
Open Scope Z_scope.

(* ------------------------------------------------------------------ *)
(** ** Bit fields of a 64-bit word *)

(** [w]-bit field at bit offset [off] of [x]: [(x >> off) & ((1 << w) - 1)]. *)
Definition get_field (x off w : Z) : Z :=
  Z.land (Z.shiftr x off) (Z.ones w).

(** The value [v] truncated to [w] bits and placed at offset [off]. *)
Definition place (v off w : Z) : Z :=
  Z.shiftl (Z.land v (Z.ones w)) off.

(** Assignment to a bit field: [x = (x & ~(mask << off)) | ((v & mask) << off)].
    As in C, the assigned value is truncated to the width of the field. *)
Definition set_field (x off w v : Z) : Z :=
  Z.lor (Z.land x (Z.lnot (Z.shiftl (Z.ones w) off))) (place v off w).

(* ------------------------------------------------------------------ *)
(** ** The [dr7] union (dr.h)

    Bit offsets of the per-slot fields of the anonymous struct:
    [local_breakpoint_i] at bit [2i], [global_breakpoint_i] at [2i+1],
    [read_write_i] (2 bits) at [16+4i], [length_i] (2 bits) at [18+4i]. *)

Definition off_local_breakpoint (i : Z) : Z := 2 * i.
Definition off_global_breakpoint (i : Z) : Z := 2 * i + 1.
Definition off_read_write (i : Z) : Z := 16 + 4 * i.
Definition off_length (i : Z) : Z := 18 + 4 * i.

(** The struct view of [dr7], field by field in declaration order. *)
Record dr7_struct := mk_dr7_struct {
  local_breakpoint_0 : Z;   (* bit 0 *)
  global_breakpoint_0 : Z;  (* bit 1 *)
  local_breakpoint_1 : Z;   (* bit 2 *)
  global_breakpoint_1 : Z;  (* bit 3 *)
  local_breakpoint_2 : Z;   (* bit 4 *)
  global_breakpoint_2 : Z;  (* bit 5 *)
  local_breakpoint_3 : Z;   (* bit 6 *)
  global_breakpoint_3 : Z;  (* bit 7 *)
  local_exact_breakpoint : Z;  (* bit 8 *)
  global_exact_breakpoint : Z; (* bit 9 *)
  reserved1 : Z;            (* bit 10 *)
  restricted_transactional_memory : Z; (* bit 11 *)
  reserved2 : Z;            (* bit 12 *)
  general_detect : Z;       (* bit 13 *)
  reserved3 : Z;            (* bits 15:14 *)
  read_write_0 : Z;         (* bits 17:16 *)
  length_0 : Z;             (* bits 19:18 *)
  read_write_1 : Z;         (* bits 21:20 *)
  length_1 : Z;             (* bits 23:22 *)
  read_write_2 : Z;         (* bits 25:24 *)
  length_2 : Z;             (* bits 27:26 *)
  read_write_3 : Z;         (* bits 29:28 *)
  length_3 : Z;             (* bits 31:30 *)
  reserved4 : Z             (* bits 63:32 *)
}.

(** Reading the struct members of a union whose [flags] is [x]. *)
Definition dr7_decode (x : Z) : dr7_struct := {|
  local_breakpoint_0 := get_field x 0 1;
  global_breakpoint_0 := get_field x 1 1;
  local_breakpoint_1 := get_field x 2 1;
  global_breakpoint_1 := get_field x 3 1;
  local_breakpoint_2 := get_field x 4 1;
  global_breakpoint_2 := get_field x 5 1;
  local_breakpoint_3 := get_field x 6 1;
  global_breakpoint_3 := get_field x 7 1;
  local_exact_breakpoint := get_field x 8 1;
  global_exact_breakpoint := get_field x 9 1;
  reserved1 := get_field x 10 1;
  restricted_transactional_memory := get_field x 11 1;
  reserved2 := get_field x 12 1;
  general_detect := get_field x 13 1;
  reserved3 := get_field x 14 2;
  read_write_0 := get_field x 16 2;
  length_0 := get_field x 18 2;
  read_write_1 := get_field x 20 2;
  length_1 := get_field x 22 2;
  read_write_2 := get_field x 24 2;
  length_2 := get_field x 26 2;
  read_write_3 := get_field x 28 2;
  length_3 := get_field x 30 2;
  reserved4 := get_field x 32 32 |}.

(** The [flags] word of a union whose struct members are [r]. *)
Definition dr7_encode (r : dr7_struct) : Z :=
  Z.lor (place (local_breakpoint_0 r) 0 1)
 (Z.lor (place (global_breakpoint_0 r) 1 1)
 (Z.lor (place (local_breakpoint_1 r) 2 1)
 (Z.lor (place (global_breakpoint_1 r) 3 1)
 (Z.lor (place (local_breakpoint_2 r) 4 1)
 (Z.lor (place (global_breakpoint_2 r) 5 1)
 (Z.lor (place (local_breakpoint_3 r) 6 1)
 (Z.lor (place (global_breakpoint_3 r) 7 1)
 (Z.lor (place (local_exact_breakpoint r) 8 1)
 (Z.lor (place (global_exact_breakpoint r) 9 1)
 (Z.lor (place (reserved1 r) 10 1)
 (Z.lor (place (restricted_transactional_memory r) 11 1)
 (Z.lor (place (reserved2 r) 12 1)
 (Z.lor (place (general_detect r) 13 1)
 (Z.lor (place (reserved3 r) 14 2)
 (Z.lor (place (read_write_0 r) 16 2)
 (Z.lor (place (length_0 r) 18 2)
 (Z.lor (place (read_write_1 r) 20 2)
 (Z.lor (place (length_1 r) 22 2)
 (Z.lor (place (read_write_2 r) 24 2)
 (Z.lor (place (length_2 r) 26 2)
 (Z.lor (place (read_write_3 r) 28 2)
 (Z.lor (place (length_3 r) 30 2)
        (place (reserved4 r) 32 32))))))))))))))))))))))).

(** Every member of the [dr7] struct view holds a value of its width. *)
Definition dr7_struct_wf (r : dr7_struct) : Prop :=
  0 <= local_breakpoint_0 r < 2 /\ 0 <= global_breakpoint_0 r < 2 /\
  0 <= local_breakpoint_1 r < 2 /\ 0 <= global_breakpoint_1 r < 2 /\
  0 <= local_breakpoint_2 r < 2 /\ 0 <= global_breakpoint_2 r < 2 /\
  0 <= local_breakpoint_3 r < 2 /\ 0 <= global_breakpoint_3 r < 2 /\
  0 <= local_exact_breakpoint r < 2 /\ 0 <= global_exact_breakpoint r < 2 /\
  0 <= reserved1 r < 2 /\ 0 <= restricted_transactional_memory r < 2 /\
  0 <= reserved2 r < 2 /\ 0 <= general_detect r < 2 /\
  0 <= reserved3 r < 4 /\
  0 <= read_write_0 r < 4 /\ 0 <= length_0 r < 4 /\
  0 <= read_write_1 r < 4 /\ 0 <= length_1 r < 4 /\
  0 <= read_write_2 r < 4 /\ 0 <= length_2 r < 4 /\
  0 <= read_write_3 r < 4 /\ 0 <= length_3 r < 4 /\
  0 <= reserved4 r < 2 ^ 32.

(** The [dr6] union of dr.h (debug status register), in its own name space
    since several member names are shared with [dr7]. *)
Module DR6.

Record dr6_struct := mk_dr6_struct {
  breakpoint_condition : Z;            (* bits 3:0 *)
  reserved1 : Z;                       (* bits 12:4 *)
  debug_register_access_detected : Z;  (* bit 13 *)
  single_instruction : Z;              (* bit 14 *)
  task_switch : Z;                     (* bit 15 *)
  restricted_transactional_memory : Z; (* bit 16 *)
  reserved2 : Z                        (* bits 63:17 *)
}.

Definition dr6_decode (x : Z) : dr6_struct := {|
  breakpoint_condition := get_field x 0 4;
  reserved1 := get_field x 4 9;
  debug_register_access_detected := get_field x 13 1;
  single_instruction := get_field x 14 1;
  task_switch := get_field x 15 1;
  restricted_transactional_memory := get_field x 16 1;
  reserved2 := get_field x 17 47 |}.

Definition dr6_encode (r : dr6_struct) : Z :=
  Z.lor (place (breakpoint_condition r) 0 4)
 (Z.lor (place (reserved1 r) 4 9)
 (Z.lor (place (debug_register_access_detected r) 13 1)
 (Z.lor (place (single_instruction r) 14 1)
 (Z.lor (place (task_switch r) 15 1)
 (Z.lor (place (restricted_transactional_memory r) 16 1)
        (place (reserved2 r) 17 47)))))).

Definition dr6_struct_wf (r : dr6_struct) : Prop :=
  0 <= breakpoint_condition r < 2 ^ 4 /\ 0 <= reserved1 r < 2 ^ 9 /\
  0 <= debug_register_access_detected r < 2 /\ 0 <= single_instruction r < 2 /\
  0 <= task_switch r < 2 /\ 0 <= restricted_transactional_memory r < 2 /\
  0 <= reserved2 r < 2 ^ 47.

End DR6.

(* ------------------------------------------------------------------ *)
(** ** Enumerations and the HWBP descriptor (hwbp.h) *)

Inductive BP_READ_WRITE :=
  INSTRUCTION_EXECUTION | DATA_WRITEONLY | IO_READWRITE | DATA_READWRITE.

Definition BP_READ_WRITE_val (c : BP_READ_WRITE) : Z :=
  match c with
  | INSTRUCTION_EXECUTION => 0
  | DATA_WRITEONLY => 1
  | IO_READWRITE => 2
  | DATA_READWRITE => 3
  end.

Inductive BP_LENGTH := ONE_BYTE | TWO_BYTE | EIGHT_BYTE | FOUR_BYTE.

Definition BP_LENGTH_val (l : BP_LENGTH) : Z :=
  match l with
  | ONE_BYTE => 0
  | TWO_BYTE => 1
  | EIGHT_BYTE => 2
  | FOUR_BYTE => 3
  end.

(** Size in bytes of the watched region named by each enumerator. *)
Definition BP_LENGTH_bytes (l : BP_LENGTH) : Z :=
  match l with
  | ONE_BYTE => 1
  | TWO_BYTE => 2
  | EIGHT_BYTE => 8
  | FOUR_BYTE => 4
  end.

(** [struct _HWBP]; [target] is the 64-bit pointer value, [index] the
    [int8_t] slot ([-1] when none), [enabled] the [uint8_t] flag. *)
Record HWBP := mk_HWBP {
  target : Z;
  threadId : Z;
  read_write : BP_READ_WRITE;
  length : BP_LENGTH;
  index : Z;
  enabled : bool
}.

Definition set_index (bp : HWBP) (i : Z) : HWBP :=
  mk_HWBP (target bp) (threadId bp) (read_write bp) (length bp) i (enabled bp).
Definition set_enabled (bp : HWBP) (e : bool) : HWBP :=
  mk_HWBP (target bp) (threadId bp) (read_write bp) (length bp) (index bp) e.

Definition bp_init (lpTarget threadId0 : Z) (rw : BP_READ_WRITE) (len : BP_LENGTH)
  : HWBP :=
  mk_HWBP lpTarget threadId0 rw len (-1) false.

(** [bp_create]: [malloc_ok] is whether [malloc] returned non-NULL. *)
Definition bp_create (malloc_ok : bool) (lpTarget threadId0 : Z)
  (rw : BP_READ_WRITE) (len : BP_LENGTH) : option HWBP :=
  if negb malloc_ok then None
  else Some (bp_init lpTarget threadId0 rw len).

(** [get_free_index]: the [!_dr7.local_breakpoint_i] tests in order. *)
Definition get_free_index (dr7 : Z) : Z :=
  if get_field dr7 (off_local_breakpoint 0) 1 =? 0 then 0
  else if get_field dr7 (off_local_breakpoint 1) 1 =? 0 then 1
  else if get_field dr7 (off_local_breakpoint 2) 1 =? 0 then 2
  else if get_field dr7 (off_local_breakpoint 3) 1 =? 0 then 3
  else -1.

(* ------------------------------------------------------------------ *)
(** ** The debug registers of a thread [CONTEXT]

    Only the part of [CONTEXT] selected by [CONTEXT_DEBUG_REGISTERS]. *)
Record CONTEXT := mk_CONTEXT {
  Dr0 : Z; Dr1 : Z; Dr2 : Z; Dr3 : Z; Dr6 : Z; Dr7 : Z
}.

(** [CONTEXT ctx = { 0 }] *)
Definition CONTEXT_zero : CONTEXT := mk_CONTEXT 0 0 0 0 0 0.

Definition set_Dr0 c v := mk_CONTEXT v (Dr1 c) (Dr2 c) (Dr3 c) (Dr6 c) (Dr7 c).
Definition set_Dr1 c v := mk_CONTEXT (Dr0 c) v (Dr2 c) (Dr3 c) (Dr6 c) (Dr7 c).
Definition set_Dr2 c v := mk_CONTEXT (Dr0 c) (Dr1 c) v (Dr3 c) (Dr6 c) (Dr7 c).
Definition set_Dr3 c v := mk_CONTEXT (Dr0 c) (Dr1 c) (Dr2 c) v (Dr6 c) (Dr7 c).
Definition set_Dr7 c v := mk_CONTEXT (Dr0 c) (Dr1 c) (Dr2 c) (Dr3 c) (Dr6 c) v.

(** Address register [Dr<i>] of slot [i]. *)
Definition dr_addr (i : Z) (c : CONTEXT) : Z :=
  match i with
  | 0 => Dr0 c | 1 => Dr1 c | 2 => Dr2 c | 3 => Dr3 c | _ => 0
  end.

(** [bp_add_to_ctx]: returns the [BOOL] result and the descriptor and
    context as the function leaves them ([bp] and [ctx] are in/out). *)
Definition bp_add_to_ctx (bp : HWBP) (ctx : CONTEXT) : bool * HWBP * CONTEXT :=
  let dr7 := Dr7 ctx in
  let idx := get_free_index dr7 in
  if idx =? -1 then (false, bp, ctx)
  else
    let len := BP_LENGTH_val (length bp) in
    let rw := BP_READ_WRITE_val (read_write bp) in
    let slot i ctx' :=
      Some (ctx',
            set_field (set_field (set_field dr7
              (off_local_breakpoint i) 1 1)
              (off_length i) 2 len)
              (off_read_write i) 2 rw) in
    let r :=
      match idx with
      | 0 => slot 0 (set_Dr0 ctx (target bp))
      | 1 => slot 1 (set_Dr1 ctx (target bp))
      | 2 => slot 2 (set_Dr2 ctx (target bp))
      | 3 => slot 3 (set_Dr3 ctx (target bp))
      | _ => None (* should never happen *)
      end in
    match r with
    | None => (false, bp, ctx)
    | Some (ctx', dr7') => (true, set_index bp idx, set_Dr7 ctx' dr7')
    end.

(** [bp_remove_from_ctx]. *)
Definition bp_remove_from_ctx (bp : HWBP) (ctx : CONTEXT) : bool * HWBP * CONTEXT :=
  let dr7 := Dr7 ctx in
  let slot i ctx' :=
    Some (ctx',
          set_field (set_field (set_field dr7
            (off_local_breakpoint i) 1 0)
            (off_length i) 2 0)
            (off_read_write i) 2 0) in
  let r :=
    match index bp with
    | 0 => slot 0 (set_Dr0 ctx 0)
    | 1 => slot 1 (set_Dr1 ctx 0)
    | 2 => slot 2 (set_Dr2 ctx 0)
    | 3 => slot 3 (set_Dr3 ctx 0)
    | _ => None
    end in
  match r with
  | None => (false, set_enabled bp false, ctx)  (* bp->enabled = FALSE; return FALSE *)
  | Some (ctx', dr7') => (true, set_index bp (-1), set_Dr7 ctx' dr7')
  end.

(* ------------------------------------------------------------------ *)
(** ** The Win32 thread primitives over an explicit OS state *)

(** Injected failures of the primitives (a failing stand-in for each). *)
Record Faults := mk_Faults {
  open_fails : bool;
  suspend_fails : bool;
  get_context_fails : bool;
  set_context_fails : bool
}.

Definition no_faults : Faults := mk_Faults false false false false.

(** One call to a primitive, with its outcome where it has one. *)
Inductive event :=
| EvOpenThread (ok : bool)
| EvSuspendThread (ok : bool)
| EvGetThreadContext (ok : bool)
| EvSetThreadContext (ok : bool)
| EvResumeThread
| EvCloseHandle.

(** The target thread ([os_thread_id] and its register file [os_ctx]), the
    injected faults and the log of calls, most recent first. *)
Record OS := mk_OS {
  os_faults : Faults;
  os_thread_id : Z;
  os_ctx : CONTEXT;
  os_log : list event
}.

Definition M (A : Type) : Type := OS -> A * OS.

Definition ret {A} (a : A) : M A := fun s => (a, s).
Definition bind {A B} (m : M A) (k : A -> M B) : M B :=
  fun s => let (a, s') := m s in k a s'.

Module MonadNotation.
Notation "x <- c1 ;; c2" := (bind c1 (fun x => c2))
  (at level 61, c1 at next level, right associativity).
Notation "' pat <- c1 ;; c2" := (bind c1 (fun x => match x with pat => c2 end))
  (at level 61, pat pattern, c1 at next level, right associativity).
Notation "c1 ;; c2" := (bind c1 (fun _ => c2))
  (at level 61, right associativity).
End MonadNotation.
Import MonadNotation.

Definition emit (e : event) (s : OS) : OS :=
  mk_OS (os_faults s) (os_thread_id s) (os_ctx s) (e :: os_log s).

(** [OpenThread(..., threadId)]: [true] for a non-NULL handle. *)
Definition OpenThread (tid : Z) : M bool := fun s =>
  let ok := negb (open_fails (os_faults s)) && (tid =? os_thread_id s) in
  (ok, emit (EvOpenThread ok) s).

(** [(DWORD)-1] *)
Definition DWORD_MINUS_1 : Z := 2 ^ 32 - 1.

(** [SuspendThread]: the previous suspend count, or [(DWORD)-1]. *)
Definition SuspendThread : M Z := fun s =>
  let ok := negb (suspend_fails (os_faults s)) in
  (if ok then 0 else DWORD_MINUS_1, emit (EvSuspendThread ok) s).

(** [GetThreadContext(h, &ctx)]: fills [ctx] with the thread's debug
    registers on success. *)
Definition GetThreadContext (ctx : CONTEXT) : M (bool * CONTEXT) := fun s =>
  let ok := negb (get_context_fails (os_faults s)) in
  ((ok, if ok then os_ctx s else ctx), emit (EvGetThreadContext ok) s).

(** [SetThreadContext(h, &ctx)]: one indivisible write of the register file. *)
Definition SetThreadContext (ctx : CONTEXT) : M bool := fun s =>
  let ok := negb (set_context_fails (os_faults s)) in
  let s' := emit (EvSetThreadContext ok) s in
  (ok, if ok then mk_OS (os_faults s') (os_thread_id s') ctx (os_log s') else s').

Definition ResumeThread : M unit := fun s => (tt, emit EvResumeThread s).
Definition CloseHandle : M unit := fun s => (tt, emit EvCloseHandle s).

(* ------------------------------------------------------------------ *)
(** ** [bp_enable] and [bp_disable] *)

Definition bp_enable (bp : HWBP) : M (bool * HWBP) :=
  hThread <- OpenThread (threadId bp) ;;
  if negb hThread then ret (false, bp) else
  sc <- SuspendThread ;;
  if sc =? DWORD_MINUS_1 then
    CloseHandle ;; ret (false, bp)
  else
  '(got, ctx) <- GetThreadContext CONTEXT_zero ;;
  if negb got then
    ResumeThread ;; CloseHandle ;; ret (false, bp)
  else
  let '(added, bp, ctx) := bp_add_to_ctx bp ctx in
  if negb added then
    ResumeThread ;; CloseHandle ;; ret (false, bp)
  else
  set <- SetThreadContext ctx ;;
  if negb set then
    ResumeThread ;; CloseHandle ;; ret (false, bp)
  else
  ResumeThread ;; CloseHandle ;;
  ret (true, set_enabled bp true).

Definition bp_disable (bp : HWBP) : M (bool * HWBP) :=
  hThread <- OpenThread (threadId bp) ;;
  if negb hThread then ret (false, bp) else
  sc <- SuspendThread ;;
  if sc =? DWORD_MINUS_1 then
    CloseHandle ;; ret (false, bp)
  else
  '(got, ctx) <- GetThreadContext CONTEXT_zero ;;
  if negb got then
    ResumeThread ;; CloseHandle ;; ret (false, bp)
  else
  let '(removed, bp, ctx) := bp_remove_from_ctx bp ctx in
  if negb removed then
    ResumeThread ;; CloseHandle ;; ret (false, bp)
  else
  set <- SetThreadContext ctx ;;
  if negb set then
    ResumeThread ;; CloseHandle ;; ret (false, bp)
  else
  ResumeThread ;; CloseHandle ;;
  ret (true, set_enabled bp false).

(** Running a call on an OS state. *)
Definition run {A} (m : M A) (s : OS) : A * OS := m s.

(** Number of logged calls satisfying [p]. *)
Definition count (p : event -> bool) (l : list event) : nat :=
  List.length (filter p l).

Definition is_open_ok e := match e with EvOpenThread true => true | _ => false end.
Definition is_suspend_ok e := match e with EvSuspendThread true => true | _ => false end.
Definition is_resume e := match e with EvResumeThread => true | _ => false end.
Definition is_close e := match e with EvCloseHandle => true | _ => false end.
Definition is_set_context e := match e with EvSetThreadContext _ => true | _ => false end.

(** The resource bracket of one transaction: each successful suspend is
    matched by one resume and each acquired handle by one release. *)
Definition balanced (l : list event) : Prop :=
  (count is_suspend_ok l <= 1)%nat /\
  count is_resume l = count is_suspend_ok l /\
  count is_close l = count is_open_ok l.


(** Bit [n] of [Dr7] belongs to slot [i]: its local-enable bit or one of
    its type and length bits. *)
Definition owned_by_slot (i n : Z) : Prop :=
  n = off_local_breakpoint i \/
  off_read_write i <= n < off_read_write i + 2 \/
  off_length i <= n < off_length i + 2.

(** [ctx'] differs from [ctx] at most in the bits of [Dr7] owned by slot [i]
    and in the address register of slot [i]. *)
Definition slot_frame (i : Z) (ctx ctx' : CONTEXT) : Prop :=
  (forall n, ~ owned_by_slot i n -> Z.testbit (Dr7 ctx') n = Z.testbit (Dr7 ctx) n) /\
  (forall j, j <> i -> dr_addr j ctx' = dr_addr j ctx) /\
  Dr6 ctx' = Dr6 ctx.

(** The descriptor invariant of the spec: no slot iff not enabled. *)
Definition hwbp_inv (bp : HWBP) : Prop := index bp = -1 <-> enabled bp = false.

(** Order of the calls of one transaction, read chronologically: open the
    handle; if that worked, suspend; the context is read and written only
    while suspended; the thread is resumed before the handle is closed;
    the handle is closed last. [BStuck] is any other order. *)
Inductive bracket_state :=
  BStart | BOpen | BSuspended | BReleasable | BClosed | BStuck.

Definition bracket_step (st : bracket_state) (e : event) : bracket_state :=
  match st, e with
  | BStart, EvOpenThread true => BOpen
  | BStart, EvOpenThread false => BClosed
  | BOpen, EvSuspendThread true => BSuspended
  | BOpen, EvSuspendThread false => BReleasable
  | BSuspended, EvGetThreadContext _ => BSuspended
  | BSuspended, EvSetThreadContext _ => BSuspended
  | BSuspended, EvResumeThread => BReleasable
  | BReleasable, EvCloseHandle => BClosed
  | _, _ => BStuck
  end.

Definition bracket_final (chronological : list event) : bracket_state :=
  fold_left bracket_step chronological BStart.

(** A descriptor as the code can hold it: the spec invariant plus the
    range of [index]. *)
Definition hwbp_ok (bp : HWBP) : Prop :=
  hwbp_inv bp /\ (index bp = -1 \/ 0 <= index bp <= 3).

Definition bp_ex : HWBP := bp_init 4096 7 DATA_WRITEONLY FOUR_BYTE.
Definition os_ex (f : Faults) (dr7 : Z) : OS :=
  mk_OS f 7 (set_Dr7 CONTEXT_zero dr7) [].

Example enable_ex :
  run (bp_enable bp_ex) (os_ex no_faults 0) =
  ((true, mk_HWBP 4096 7 DATA_WRITEONLY FOUR_BYTE 0 true),
   mk_OS no_faults 7 (mk_CONTEXT 4096 0 0 0 0 (1 + 3 * 2^18 + 1 * 2^16))
     [EvCloseHandle; EvResumeThread; EvSetThreadContext true;
      EvGetThreadContext true; EvSuspendThread true; EvOpenThread true]).
Proof. reflexivity. Qed.

Example enable_disable_ex :
  let '((_, bp1), s1) := run (bp_enable bp_ex) (os_ex no_faults 0) in
  let '((r, bp2), s2) := run (bp_disable bp1) s1 in
  r = true /\ bp2 = bp_ex /\ os_ctx s2 = CONTEXT_zero.
Proof. vm_compute. auto. Qed.



Example get_free_index_ex1 : get_free_index 0 = 0.
Proof. reflexivity. Qed.
Example get_free_index_ex2 : get_free_index 1 = 1.
Proof. reflexivity. Qed.
Example get_free_index_ex3 : get_free_index 85 = -1.
Proof. reflexivity. Qed.
Example dr7_roundtrip_ex : dr7_encode (dr7_decode 123456789012345) = 123456789012345.
Proof. reflexivity. Qed.

(* ------------------------------------------------------------------ *)
(** ** Bit-level lemmas *)

Lemma testbit_place v off w n :
  0 <= off -> 0 <= w -> 0 <= n ->
  Z.testbit (place v off w) n =
  ((off <=? n) && (n <? off + w) && Z.testbit v (n - off))%bool.
Proof.
  intros Hoff Hw Hn. unfold place.
  rewrite Z.shiftl_spec by lia.
  destruct (Z.leb_spec off n).
  - rewrite Z.land_spec, Z.testbit_ones_nonneg by lia.
    destruct (Z.ltb_spec (n - off) w), (Z.ltb_spec n (off + w));
      simpl; try lia; rewrite ?andb_true_r, ?andb_false_r; reflexivity.
  - rewrite Z.testbit_neg_r by lia. reflexivity.
Qed.

Lemma testbit_get_field x off w n :
  0 <= off -> 0 <= w -> 0 <= n ->
  Z.testbit (get_field x off w) n = ((n <? w) && Z.testbit x (n + off))%bool.
Proof.
  intros Hoff Hw Hn. unfold get_field.
  rewrite Z.land_spec, Z.testbit_ones_nonneg, Z.shiftr_spec by lia.
  apply andb_comm.
Qed.

Lemma testbit_set_field x off w v n :
  0 <= off -> 0 <= w -> 0 <= n ->
  Z.testbit (set_field x off w v) n =
  if (off <=? n) && (n <? off + w) then Z.testbit v (n - off)
  else Z.testbit x n.
Proof.
  intros Hoff Hw Hn. unfold set_field.
  rewrite Z.lor_spec, Z.land_spec, Z.lnot_spec, testbit_place by lia.
  rewrite Z.shiftl_spec by lia.
  destruct (Z.leb_spec off n), (Z.ltb_spec n (off + w)); simpl.
  - rewrite Z.testbit_ones_nonneg by lia.
    destruct (Z.ltb_spec (n - off) w); try lia. simpl.
    rewrite andb_false_r. reflexivity.
  - rewrite Z.testbit_ones_nonneg by lia.
    destruct (Z.ltb_spec (n - off) w); try lia. simpl.
    rewrite andb_true_r, orb_false_r. reflexivity.
  - rewrite (Z.testbit_neg_r (Z.ones w)) by lia. simpl.
    rewrite andb_true_r, orb_false_r. reflexivity.
  - rewrite (Z.testbit_neg_r (Z.ones w)) by lia. simpl.
    rewrite andb_true_r, orb_false_r. reflexivity.
Qed.

(** A one-bit field reads as the bit. *)
Lemma get_field_1 x off :
  0 <= off -> get_field x off 1 = Z.b2z (Z.testbit x off).
Proof.
  intros Hoff. unfold get_field.
  rewrite Z.land_ones, Z.shiftr_div_pow2 by lia.
  rewrite Z.testbit_spec' by lia. reflexivity.
Qed.

Lemma testbit_small v n : 0 <= v < 4 -> 2 <= n -> Z.testbit v n = false.
Proof.
  intros Hv Hn.
  rewrite <- (Z.mod_small v (2 ^ 2)) by (simpl; lia).
  apply Z.mod_pow2_bits_high. lia.
Qed.

Lemma testbit_out_of_range x n :
  0 <= x < 2 ^ 64 -> 64 <= n -> Z.testbit x n = false.
Proof.
  intros Hx Hn.
  rewrite <- (Z.mod_small x (2 ^ 64)) by lia.
  apply Z.mod_pow2_bits_high. lia.
Qed.

Lemma testbit_place_get x off w n :
  0 <= off -> 0 <= w -> 0 <= n ->
  Z.testbit (place (get_field x off w) off w) n =
  ((off <=? n) && (n <? off + w) && Z.testbit x n)%bool.
Proof.
  intros Hoff Hw Hn.
  rewrite testbit_place by lia.
  destruct (Z.leb_spec off n); simpl; [|reflexivity].
  rewrite testbit_get_field by lia.
  replace (n - off + off) with n by lia.
  destruct (Z.ltb_spec n (off + w)), (Z.ltb_spec (n - off) w); simpl; lia || reflexivity.
Qed.

(** Bits [0..63] are each covered by a field of the struct. *)
Lemma below_64_cases (P : Z -> Prop) :
  (forall k, (k < 64)%nat -> P (Z.of_nat k)) -> forall n, 0 <= n < 64 -> P n.
Proof.
  intros H n Hn. replace n with (Z.of_nat (Z.to_nat n)) by lia.
  apply H. lia.
Qed.

(* ------------------------------------------------------------------ *)
(** ** Claims *)

(** C3: for every 64-bit [x], reading the struct members of a [dr7] whose
    [flags] is [x] and writing them back yields [x]:
    [encode (decode x) = x]. *)
Theorem dr7_encode_decode (x : Z) :
  0 <= x < 2 ^ 64 -> dr7_encode (dr7_decode x) = x.
Proof.
  intros Hx. apply Z.bits_inj'. intros n Hn.
  unfold dr7_encode, dr7_decode.
  cbn [local_breakpoint_0 global_breakpoint_0 local_breakpoint_1 global_breakpoint_1
    local_breakpoint_2 global_breakpoint_2 local_breakpoint_3 global_breakpoint_3
    local_exact_breakpoint global_exact_breakpoint reserved1
    restricted_transactional_memory reserved2 general_detect reserved3
    read_write_0 length_0 read_write_1 length_1 read_write_2 length_2
    read_write_3 length_3 reserved4].
  rewrite !Z.lor_spec, !testbit_place_get by lia.
  destruct (Z.testbit x n) eqn:E.
  - assert (Hlt : n < 64).
    { destruct (Z.ltb_spec n 64); auto.
      rewrite testbit_out_of_range in E by lia. discriminate. }
    clear E. revert n Hn Hlt. intros n Hn Hlt.
    pattern n. apply below_64_cases; [|lia].
    intros k Hk. do 64 (destruct k as [|k]; [reflexivity|]). lia.
  - rewrite !andb_false_r. reflexivity.
Qed.

Lemma dr7_encode_decode_witness :
  0 <= 18446744073709551615 < 2 ^ 64 /\
  dr7_encode (dr7_decode 18446744073709551615) = 18446744073709551615.
Proof.
  split; [lia|]. apply dr7_encode_decode. lia.
Defined.

Lemma get_free_index_bits x :
  get_free_index x =
  if negb (Z.testbit x (off_local_breakpoint 0)) then 0
  else if negb (Z.testbit x (off_local_breakpoint 1)) then 1
  else if negb (Z.testbit x (off_local_breakpoint 2)) then 2
  else if negb (Z.testbit x (off_local_breakpoint 3)) then 3
  else -1.
Proof.
  unfold get_free_index.
  rewrite !get_field_1 by (unfold off_local_breakpoint; lia).
  destruct (Z.testbit x (off_local_breakpoint 0)), (Z.testbit x (off_local_breakpoint 1)),
    (Z.testbit x (off_local_breakpoint 2)), (Z.testbit x (off_local_breakpoint 3));
    reflexivity.
Qed.

Lemma slot_cases i : 0 <= i <= 3 -> i = 0 \/ i = 1 \/ i = 2 \/ i = 3.
Proof. lia. Qed.

Ltac destruct_slot_bits x :=
  destruct (Z.testbit x (off_local_breakpoint 0)), (Z.testbit x (off_local_breakpoint 1)),
    (Z.testbit x (off_local_breakpoint 2)), (Z.testbit x (off_local_breakpoint 3)).

Ltac slot_cases i :=
  let E := fresh "E" in
  match goal with Hi : 0 <= i <= 3 |- _ =>
    destruct (slot_cases i Hi) as [E|[E|[E|E]]]; rewrite E in *; clear E end.

(** C2: the allocator is strict ascending first fit over the four
    local-enable bits: it returns [-1] exactly when L0..L3 are all set,
    it returns slot [i] exactly when [Li] is clear and every [Lj] with
    [j < i] is set, and its result depends on L0..L3 only. *)
Theorem get_free_index_first_fit (x : Z) :
  (get_free_index x = -1 <->
     forall i, 0 <= i <= 3 -> Z.testbit x (off_local_breakpoint i) = true) /\
  (forall i, 0 <= i <= 3 ->
     (get_free_index x = i <->
      Z.testbit x (off_local_breakpoint i) = false /\
      forall j, 0 <= j < i -> Z.testbit x (off_local_breakpoint j) = true)) /\
  (forall y,
     (forall i, 0 <= i <= 3 ->
        Z.testbit y (off_local_breakpoint i) = Z.testbit x (off_local_breakpoint i)) ->
     get_free_index y = get_free_index x).
Proof.
  split; [|split].
  - rewrite get_free_index_bits. split.
    + intros H i Hi. slot_cases i;
        destruct_slot_bits x;
        simpl in H; congruence.
    + intros H. rewrite (H 0), (H 1), (H 2), (H 3) by lia. reflexivity.
  - intros i Hi. rewrite get_free_index_bits.
    assert (A : forall j, 0 <= j < i -> j = 0 \/ j = 1 \/ j = 2) by lia.
    split.
    + intros H. split.
      * slot_cases i;
          destruct_slot_bits x;
          simpl in H; congruence.
      * intros j Hj. destruct (A j Hj) as [ -> | [ -> | -> ] ];
          destruct_slot_bits x;
          simpl in H; try congruence; lia.
    + intros [H0 Hlt]. slot_cases i.
      * rewrite H0. reflexivity.
      * rewrite (Hlt 0), H0 by lia. reflexivity.
      * rewrite (Hlt 0), (Hlt 1), H0 by lia. reflexivity.
      * rewrite (Hlt 0), (Hlt 1), (Hlt 2), H0 by lia. reflexivity.
  - intros y H. rewrite !get_free_index_bits.
    rewrite (H 0), (H 1), (H 2), (H 3) by lia. reflexivity.
Qed.

Lemma get_free_index_values x :
  get_free_index x = -1 \/ get_free_index x = 0 \/ get_free_index x = 1 \/
  get_free_index x = 2 \/ get_free_index x = 3.
Proof.
  unfold get_free_index.
  repeat match goal with |- context [if ?b then _ else _] => destruct b end; auto.
Qed.

Lemma dr_addr_cases j c :
  dr_addr j c =
  if j =? 0 then Dr0 c else if j =? 1 then Dr1 c else if j =? 2 then Dr2 c
  else if j =? 3 then Dr3 c else 0.
Proof.
  destruct j as [|[[p|p|]|[p|p|]|]|p]; reflexivity.
Qed.

Ltac dr_addr_frame :=
  let j := fresh "j" in
  let Hj := fresh "Hj" in
  intros j Hj; rewrite !dr_addr_cases; simpl;
  destruct (Z.eqb_spec j 0), (Z.eqb_spec j 1), (Z.eqb_spec j 2), (Z.eqb_spec j 3);
  (reflexivity || lia).

Lemma bp_add_to_ctx_spec bp ctx r bp' ctx' :
  bp_add_to_ctx bp ctx = (r, bp', ctx') ->
  let i := get_free_index (Dr7 ctx) in
  (i = -1 /\ r = false /\ bp' = bp /\ ctx' = ctx) \/
  (0 <= i <= 3 /\ r = true /\ bp' = set_index bp i /\
   Dr7 ctx' =
     set_field (set_field (set_field (Dr7 ctx)
       (off_local_breakpoint i) 1 1)
       (off_length i) 2 (BP_LENGTH_val (length bp)))
       (off_read_write i) 2 (BP_READ_WRITE_val (read_write bp)) /\
   dr_addr i ctx' = target bp /\
   (forall j, j <> i -> dr_addr j ctx' = dr_addr j ctx) /\
   Dr6 ctx' = Dr6 ctx).
Proof.
  unfold bp_add_to_ctx. intros H; cbv zeta.
  destruct (get_free_index_values (Dr7 ctx)) as [E|[E|[E|[E|E]]]];
    rewrite E in *; simpl in H; injection H as <- <- <-; [left|right..];
    repeat split; try lia; try reflexivity; dr_addr_frame.
Qed.

Ltac destruct_slot z := destruct z as [|[[?|?|]|[?|?|]|]|?].

Lemma bp_remove_from_ctx_spec bp ctx r bp' ctx' :
  bp_remove_from_ctx bp ctx = (r, bp', ctx') ->
  let i := index bp in
  (~ (0 <= i <= 3) /\ r = false /\ bp' = set_enabled bp false /\ ctx' = ctx) \/
  (0 <= i <= 3 /\ r = true /\ bp' = set_index bp (-1) /\
   Dr7 ctx' =
     set_field (set_field (set_field (Dr7 ctx)
       (off_local_breakpoint i) 1 0)
       (off_length i) 2 0)
       (off_read_write i) 2 0 /\
   dr_addr i ctx' = 0 /\
   (forall j, j <> i -> dr_addr j ctx' = dr_addr j ctx) /\
   Dr6 ctx' = Dr6 ctx).
Proof.
  unfold bp_remove_from_ctx. intros H; cbv zeta.
  destruct bp as [t tid rw len idx en]; simpl in *.
  destruct_slot idx; simpl in H; injection H as <- <- <-;
    solve [ left; repeat split; lia
          | right; repeat split; try lia; try reflexivity; dr_addr_frame ].
Qed.

(** The three field assignments of one slot, read bit by bit. *)
Lemma testbit_set_slot x i l len rw n :
  0 <= i <= 3 -> 0 <= n ->
  Z.testbit
    (set_field (set_field (set_field x
       (off_local_breakpoint i) 1 l) (off_length i) 2 len) (off_read_write i) 2 rw) n =
  if n =? off_local_breakpoint i then Z.testbit l 0
  else if (off_length i <=? n) && (n <? off_length i + 2) then
    Z.testbit len (n - off_length i)
  else if (off_read_write i <=? n) && (n <? off_read_write i + 2) then
    Z.testbit rw (n - off_read_write i)
  else Z.testbit x n.
Proof.
  intros Hi Hn.
  rewrite !testbit_set_field by (unfold off_local_breakpoint, off_length, off_read_write; lia).
  unfold off_local_breakpoint, off_length, off_read_write.
  repeat match goal with
  | |- context [?a <=? ?b] => destruct (Z.leb_spec a b)
  | |- context [?a <? ?b] => destruct (Z.ltb_spec a b)
  | |- context [?a =? ?b] => destruct (Z.eqb_spec a b)
  end; cbn [andb]; try lia; try reflexivity.
  all: subst n; f_equal; lia.
Qed.

Lemma set_slot_frame x i l len rw n :
  0 <= i <= 3 -> ~ owned_by_slot i n ->
  Z.testbit
    (set_field (set_field (set_field x
       (off_local_breakpoint i) 1 l) (off_length i) 2 len) (off_read_write i) 2 rw) n =
  Z.testbit x n.
Proof.
  intros Hi Hn. unfold owned_by_slot in Hn.
  destruct (Z.ltb_spec n 0).
  - rewrite !Z.testbit_neg_r by lia. reflexivity.
  - rewrite testbit_set_slot by lia.
    destruct (Z.eqb_spec n (off_local_breakpoint i)); [tauto|].
    destruct (Z.leb_spec (off_length i) n), (Z.ltb_spec n (off_length i + 2));
      cbn [andb]; try lia;
    destruct (Z.leb_spec (off_read_write i) n), (Z.ltb_spec n (off_read_write i + 2));
      cbn [andb]; lia || reflexivity.
Qed.

(** C4: a slot assignment by [bp_add_to_ctx] (claiming slot [i]) and a
    slot clear by [bp_remove_from_ctx] (of slot [i]) change, in [Dr7], only
    the local-enable bit and the type and length fields of slot [i]: every
    other bit (the other slots' fields, the global-enable bits, the
    reserved bits) is unchanged, as are [Dr6] and the address registers of
    the other slots. *)
Theorem slot_mutation_isolated (bp : HWBP) (ctx : CONTEXT) :
  (forall bp' ctx', bp_add_to_ctx bp ctx = (true, bp', ctx') ->
     0 <= index bp' <= 3 /\ slot_frame (index bp') ctx ctx') /\
  (0 <= index bp <= 3 -> exists bp' ctx',
     bp_remove_from_ctx bp ctx = (true, bp', ctx') /\ slot_frame (index bp) ctx ctx').
Proof.
  split.
  - intros bp' ctx' H.
    destruct (bp_add_to_ctx_spec _ _ _ _ _ H)
      as [[_ [? _]] | [Hi [_ [-> [H7 [_ [Hj H6]]]]]]]; [discriminate|].
    simpl. split; [exact Hi|]. split; [|split; assumption].
    intros n Hn. rewrite H7. apply set_slot_frame; assumption.
  - intros Hi.
    destruct (bp_remove_from_ctx bp ctx) as [[r bp'] ctx'] eqn:H.
    destruct (bp_remove_from_ctx_spec _ _ _ _ _ H)
      as [[Hn _] | [_ [-> [-> [H7 [_ [Hj H6]]]]]]]; [contradiction|].
    exists (set_index bp (-1)), ctx'. split; [reflexivity|].
    split; [|split; assumption].
    intros n Hn. rewrite H7. apply set_slot_frame; assumption.
Qed.

Lemma slot_mutation_isolated_witness :
  let bp := set_index bp_ex 2 in
  let ctx := set_Dr7 CONTEXT_zero 85 in
  (0 <= index (set_index bp_ex 0) <= 3 /\ slot_frame (index (set_index bp_ex 0)) CONTEXT_zero
     (snd (bp_add_to_ctx bp_ex CONTEXT_zero))) /\
  (exists bp' ctx', bp_remove_from_ctx bp ctx = (true, bp', ctx') /\ slot_frame (index bp) ctx ctx').
Proof.
  intros bp ctx. split.
  - apply (proj1 (slot_mutation_isolated bp_ex CONTEXT_zero)). reflexivity.
  - apply (proj2 (slot_mutation_isolated bp ctx)). simpl. lia.
Defined.

(** C10: [get_free_index] only yields [-1] or a slot in [0..3], so the
    [default] branch of the switch of [bp_add_to_ctx] is never taken: it
    fails only on exhaustion, and on success the recorded index is a slot
    in [0..3], the one returned by the allocator, whose address register
    holds the target and whose local-enable bit is set. *)
Theorem bp_add_to_ctx_slot_valid (bp : HWBP) (ctx : CONTEXT) :
  In (get_free_index (Dr7 ctx)) [-1; 0; 1; 2; 3] /\
  (forall bp' ctx', bp_add_to_ctx bp ctx = (false, bp', ctx') ->
     get_free_index (Dr7 ctx) = -1) /\
  (forall bp' ctx', bp_add_to_ctx bp ctx = (true, bp', ctx') ->
     0 <= index bp' <= 3 /\
     index bp' = get_free_index (Dr7 ctx) /\
     dr_addr (index bp') ctx' = target bp /\
     Z.testbit (Dr7 ctx') (off_local_breakpoint (index bp')) = true).
Proof.
  split; [|split].
  - destruct (get_free_index_values (Dr7 ctx)) as [E|[E|[E|[E|E]]]]; rewrite E;
      simpl; tauto.
  - intros bp' ctx' H.
    destruct (bp_add_to_ctx_spec _ _ _ _ _ H) as [[E _] | [_ [? _]]];
      [exact E | discriminate].
  - intros bp' ctx' H.
    destruct (bp_add_to_ctx_spec _ _ _ _ _ H)
      as [[_ [? _]] | [Hi [_ [-> [H7 [Ha _]]]]]]; [discriminate|].
    simpl. split; [exact Hi|]. split; [reflexivity|]. split; [exact Ha|].
    rewrite H7, testbit_set_slot by (unfold off_local_breakpoint; lia).
    rewrite Z.eqb_refl. reflexivity.
Qed.

Lemma bp_add_to_ctx_slot_valid_witness :
  In (get_free_index (Dr7 CONTEXT_zero)) [-1; 0; 1; 2; 3] /\
  get_free_index (Dr7 (set_Dr7 CONTEXT_zero 85)) = -1 /\
  (0 <= index (set_index bp_ex 0) <= 3 /\
   index (set_index bp_ex 0) = get_free_index (Dr7 CONTEXT_zero) /\
   dr_addr (index (set_index bp_ex 0)) (snd (bp_add_to_ctx bp_ex CONTEXT_zero)) =
     target bp_ex /\
   Z.testbit (Dr7 (snd (bp_add_to_ctx bp_ex CONTEXT_zero)))
     (off_local_breakpoint (index (set_index bp_ex 0))) = true).
Proof.
  split; [apply (bp_add_to_ctx_slot_valid bp_ex CONTEXT_zero)|].
  split.
  - apply (proj1 (proj2 (bp_add_to_ctx_slot_valid bp_ex (set_Dr7 CONTEXT_zero 85)))
             bp_ex (set_Dr7 CONTEXT_zero 85)).
    reflexivity.
  - apply (proj2 (proj2 (bp_add_to_ctx_slot_valid bp_ex CONTEXT_zero))).
    reflexivity.
Defined.

(* ------------------------------------------------------------------ *)
(** ** The transactions *)

Ltac run_txn :=
  unfold run, bp_enable, bp_disable, bind, ret, OpenThread, SuspendThread,
    GetThreadContext, SetThreadContext, ResumeThread, CloseHandle, emit;
  cbn -[bp_add_to_ctx bp_remove_from_ctx].

(** C1: in [bp_enable] and in [bp_disable], whichever primitive fails
    (handle, suspend, context read, the mutation, context write), a
    successful suspend is followed by exactly one resume, and every
    acquired handle by exactly one release. *)
Theorem transaction_bracket (f : Faults) (tid : Z) (ctx : CONTEXT) (bp : HWBP) :
  balanced (os_log (snd (run (bp_enable bp) (mk_OS f tid ctx [])))) /\
  balanced (os_log (snd (run (bp_disable bp) (mk_OS f tid ctx [])))).
Proof.
  destruct f as [[] [] [] []]; run_txn;
  destruct (threadId bp =? tid); cbn -[bp_add_to_ctx bp_remove_from_ctx];
  destruct (bp_add_to_ctx bp ctx) as [[[] bp1] ctx1];
  destruct (bp_remove_from_ctx bp ctx) as [[[] bp2] ctx2];
  unfold balanced, count; cbn; lia.
Qed.

Lemma bp_enable_true bp s bp' s' :
  run (bp_enable bp) s = ((true, bp'), s') ->
  exists bp1 ctx1,
    bp_add_to_ctx bp (os_ctx s) = (true, bp1, ctx1) /\
    bp' = set_enabled bp1 true /\ os_ctx s' = ctx1 /\
    os_thread_id s' = os_thread_id s.
Proof.
  destruct s as [[[] [] [] []] tid ctx log]; run_txn;
  destruct (threadId bp =? tid); cbn -[bp_add_to_ctx]; try discriminate;
  destruct (bp_add_to_ctx bp ctx) as [[[] bp1] ctx1]; cbn; intros H;
  try discriminate; injection H as <- <-; eauto 10.
Qed.

Lemma bp_disable_true bp s bp' s' :
  run (bp_disable bp) s = ((true, bp'), s') ->
  exists bp1 ctx1,
    bp_remove_from_ctx bp (os_ctx s) = (true, bp1, ctx1) /\
    bp' = set_enabled bp1 false /\ os_ctx s' = ctx1.
Proof.
  destruct s as [[[] [] [] []] tid ctx log]; run_txn;
  destruct (threadId bp =? tid); cbn -[bp_remove_from_ctx]; try discriminate;
  destruct (bp_remove_from_ctx bp ctx) as [[[] bp1] ctx1]; cbn; intros H;
  try discriminate; injection H as <- <-; eauto 10.
Qed.

(** A 2-bit field just written reads back as the value written. *)
Lemma get_field_set_slot x i l len rw :
  0 <= i <= 3 -> 0 <= len < 4 -> 0 <= rw < 4 ->
  get_field (set_field (set_field (set_field x
       (off_local_breakpoint i) 1 l) (off_length i) 2 len) (off_read_write i) 2 rw)
    (off_length i) 2 = len /\
  get_field (set_field (set_field (set_field x
       (off_local_breakpoint i) 1 l) (off_length i) 2 len) (off_read_write i) 2 rw)
    (off_read_write i) 2 = rw.
Proof.
  intros Hi Hlen Hrw.
  unfold off_local_breakpoint, off_length, off_read_write in *.
  split; apply Z.bits_inj'; intros n Hn;
    rewrite testbit_get_field by lia;
    (destruct (Z.ltb_spec n 2);
     [ rewrite testbit_set_slot by lia;
       unfold off_local_breakpoint, off_length, off_read_write;
       repeat match goal with
       | |- context [?a <=? ?b] => destruct (Z.leb_spec a b)
       | |- context [?a <? ?b] => destruct (Z.ltb_spec a b)
       | |- context [?a =? ?b] => destruct (Z.eqb_spec a b)
       end; cbn [andb]; try lia; f_equal; lia
     | cbn [andb]; symmetry; apply testbit_small; lia ]).
Qed.

Lemma BP_LENGTH_val_range l : 0 <= BP_LENGTH_val l < 4.
Proof. destruct l; simpl; lia. Qed.

Lemma BP_READ_WRITE_val_range c : 0 <= BP_READ_WRITE_val c < 4.
Proof. destruct c; simpl; lia. Qed.

(** C9: the length enumerators carry the codes 1 byte -> 0, 2 bytes -> 1,
    8 bytes -> 2, 4 bytes -> 3, and a successful [bp_enable] leaves exactly
    that code in the 2-bit length field of the claimed slot of the
    thread's [Dr7]. *)
Theorem length_code_written :
  (BP_LENGTH_bytes ONE_BYTE = 1 /\ BP_LENGTH_val ONE_BYTE = 0) /\
  (BP_LENGTH_bytes TWO_BYTE = 2 /\ BP_LENGTH_val TWO_BYTE = 1) /\
  (BP_LENGTH_bytes EIGHT_BYTE = 8 /\ BP_LENGTH_val EIGHT_BYTE = 2) /\
  (BP_LENGTH_bytes FOUR_BYTE = 4 /\ BP_LENGTH_val FOUR_BYTE = 3) /\
  (forall bp s bp' s', run (bp_enable bp) s = ((true, bp'), s') ->
     get_field (Dr7 (os_ctx s')) (off_length (index bp')) 2 = BP_LENGTH_val (length bp)).
Proof.
  repeat split; try reflexivity.
  intros bp s bp' s' H.
  destruct (bp_enable_true _ _ _ _ H) as [bp1 [ctx1 [Hadd [-> [-> _]]]]].
  destruct (bp_add_to_ctx_spec _ _ _ _ _ Hadd)
    as [[_ [? _]] | [Hi [_ [-> [H7 _]]]]]; [discriminate|].
  simpl. rewrite H7.
  apply get_field_set_slot;
    [exact Hi | apply BP_LENGTH_val_range | apply BP_READ_WRITE_val_range].
Qed.

Lemma length_code_written_witness :
  get_field (Dr7 (os_ctx (snd (run (bp_enable bp_ex) (os_ex no_faults 0)))))
    (off_length (index (snd (fst (run (bp_enable bp_ex) (os_ex no_faults 0)))))) 2 =
  BP_LENGTH_val (length bp_ex).
Proof.
  apply (proj2 (proj2 (proj2 (proj2 length_code_written)))
           bp_ex (os_ex no_faults 0)).
  reflexivity.
Defined.

(** The slot picked by the allocator has its local-enable bit clear. *)
Lemma get_free_index_free_bit x :
  0 <= get_free_index x <= 3 ->
  Z.testbit x (off_local_breakpoint (get_free_index x)) = false.
Proof.
  intros H. rewrite get_free_index_bits in *.
  destruct (Z.testbit x (off_local_breakpoint 0)) eqn:E0; cbn [negb] in *; [|exact E0].
  destruct (Z.testbit x (off_local_breakpoint 1)) eqn:E1; cbn [negb] in *; [|exact E1].
  destruct (Z.testbit x (off_local_breakpoint 2)) eqn:E2; cbn [negb] in *; [|exact E2].
  destruct (Z.testbit x (off_local_breakpoint 3)) eqn:E3; cbn [negb] in *; [lia|exact E3].
Qed.

Lemma field_zero_bit x off n :
  get_field x off 2 = 0 -> off <= n < off + 2 -> 0 <= off -> Z.testbit x n = false.
Proof.
  intros H Hn Hoff.
  pose proof (f_equal (fun y => Z.testbit y (n - off)) H) as H'. cbn beta in H'.
  rewrite testbit_get_field, Z.testbit_0_l in H' by lia.
  replace (n - off + off) with n in H' by lia.
  destruct (Z.ltb_spec (n - off) 2); [exact H'|lia].
Qed.

(** C8 (as amended): when [bp_enable] and then [bp_disable] both succeed on
    one descriptor, with nothing else touching the thread in between, the
    thread's [Dr7] is restored to its exact original value if and only if
    the type and length fields of the slot the allocator claimed were zero
    to begin with: [bp_remove_from_ctx] zeroes those fields rather than
    restoring them: after the round trip both fields of that slot are 0. *)
Theorem enable_disable_restores_dr7 (f1 f2 : Faults) (tid : Z) (ctx : CONTEXT)
  (bp bp1 bp2 : HWBP) (s1 s2 : OS) :
  run (bp_enable bp) (mk_OS f1 tid ctx []) = ((true, bp1), s1) ->
  run (bp_disable bp1) (mk_OS f2 (os_thread_id s1) (os_ctx s1) (os_log s1)) =
    ((true, bp2), s2) ->
  (Dr7 (os_ctx s2) = Dr7 ctx <->
   get_field (Dr7 ctx) (off_read_write (get_free_index (Dr7 ctx))) 2 = 0 /\
   get_field (Dr7 ctx) (off_length (get_free_index (Dr7 ctx))) 2 = 0) /\
  get_field (Dr7 (os_ctx s2)) (off_read_write (get_free_index (Dr7 ctx))) 2 = 0 /\
  get_field (Dr7 (os_ctx s2)) (off_length (get_free_index (Dr7 ctx))) 2 = 0.
Proof.
  intros He Hd.
  destruct (bp_enable_true _ _ _ _ He) as [b1 [c1 [Hadd [-> [Hc1 _]]]]].
  simpl in Hadd.
  destruct (bp_add_to_ctx_spec _ _ _ _ _ Hadd)
    as [[_ [? _]] | [Hi [_ [-> [H7 _]]]]]; [discriminate|].
  destruct (bp_disable_true _ _ _ _ Hd) as [b2 [c2 [Hrem [_ Hc2]]]].
  simpl in Hrem. rewrite Hc1 in Hrem.
  destruct (bp_remove_from_ctx_spec _ _ _ _ _ Hrem)
    as [[Hn _] | [_ [_ [_ [H7' _]]]]]; [simpl in Hn; lia|].
  simpl in H7'. rewrite Hc2, H7', H7.
  pose proof (get_free_index_free_bit (Dr7 ctx) Hi) as Hfree.
  set (i := get_free_index (Dr7 ctx)) in *.
  set (x := Dr7 ctx) in *.
  assert (El : off_local_breakpoint i = 2 * i) by reflexivity.
  assert (Elen : off_length i = 18 + 4 * i) by reflexivity.
  assert (Erw : off_read_write i = 16 + 4 * i) by reflexivity.
  destruct (get_field_set_slot
    (set_field (set_field (set_field x (off_local_breakpoint i) 1 1)
       (off_length i) 2 (BP_LENGTH_val (length bp)))
       (off_read_write i) 2 (BP_READ_WRITE_val (read_write bp)))
    i 0 0 0 ltac:(lia) ltac:(lia) ltac:(lia)) as [Zlen Zrw].
  split; [| split; assumption].
  split.
  - intros Heq. rewrite <- Heq.
    destruct (get_field_set_slot
      (set_field (set_field (set_field x (off_local_breakpoint i) 1 1)
         (off_length i) 2 (BP_LENGTH_val (length bp)))
         (off_read_write i) 2 (BP_READ_WRITE_val (read_write bp)))
      i 0 0 0) as [A B]; lia.
  - intros [Hrw Hlen]. apply Z.bits_inj'. intros n Hn.
    rewrite !testbit_set_slot by lia.
    repeat match goal with
    | |- context [?a <=? ?b] => destruct (Z.leb_spec a b)
    | |- context [?a <? ?b] => destruct (Z.ltb_spec a b)
    | |- context [?a =? ?b] => destruct (Z.eqb_spec a b)
    end; cbn [andb]; try lia; rewrite ?Z.testbit_0_l; try reflexivity.
    all: symmetry.
    all: first
      [ match goal with e : _ = off_local_breakpoint _ |- _ => rewrite e; exact Hfree end
      | apply (field_zero_bit x (off_length i)); [exact Hlen|lia|lia]
      | apply (field_zero_bit x (off_read_write i)); [exact Hrw|lia|lia] ].
Qed.

Lemma enable_disable_restores_dr7_witness :
  let r1 := run (bp_enable bp_ex) (os_ex no_faults 0) in
  let r2 := run (bp_disable (snd (fst r1)))
              (mk_OS no_faults (os_thread_id (snd r1)) (os_ctx (snd r1)) (os_log (snd r1))) in
  (Dr7 (os_ctx (snd r2)) = Dr7 (set_Dr7 CONTEXT_zero 0) <->
   get_field (Dr7 (set_Dr7 CONTEXT_zero 0))
     (off_read_write (get_free_index (Dr7 (set_Dr7 CONTEXT_zero 0)))) 2 = 0 /\
   get_field (Dr7 (set_Dr7 CONTEXT_zero 0))
     (off_length (get_free_index (Dr7 (set_Dr7 CONTEXT_zero 0)))) 2 = 0) /\
  get_field (Dr7 (os_ctx (snd r2)))
    (off_read_write (get_free_index (Dr7 (set_Dr7 CONTEXT_zero 0)))) 2 = 0 /\
  get_field (Dr7 (os_ctx (snd r2)))
    (off_length (get_free_index (Dr7 (set_Dr7 CONTEXT_zero 0)))) 2 = 0.
Proof.
  intros r1 r2.
  apply (enable_disable_restores_dr7 no_faults no_faults 7 (set_Dr7 CONTEXT_zero 0)
           bp_ex (snd (fst r1)) (snd (fst r2)) (snd r1) (snd r2));
    reflexivity.
Defined.

(** C8 as stated fails: a thread with no breakpoint enabled (every local
    and global enable bit of [Dr7] clear, [Dr0..Dr3] zero) but a stale
    type field in slot 0 ([Dr7 = 0x30000]) gets [Dr7 = 0] back after a
    successful [bp_enable] and [bp_disable]. *)
Lemma enable_disable_stale_fields_cex :
  let s0 := os_ex no_faults 196608 in
  let r1 := run (bp_enable bp_ex) s0 in
  let r2 := run (bp_disable (snd (fst r1))) (snd r1) in
  get_field (Dr7 (os_ctx s0)) 0 8 = 0 /\
  Dr0 (os_ctx s0) = 0 /\ Dr1 (os_ctx s0) = 0 /\
  Dr2 (os_ctx s0) = 0 /\ Dr3 (os_ctx s0) = 0 /\
  fst (fst r1) = true /\ fst (fst r2) = true /\
  Dr7 (os_ctx s0) = 196608 /\ Dr7 (os_ctx (snd r2)) = 0.
Proof. vm_compute. repeat split. Qed.

Lemma bp_remove_from_ctx_unassigned bp ctx :
  ~ (0 <= index bp <= 3) ->
  bp_remove_from_ctx bp ctx = (false, set_enabled bp false, ctx).
Proof.
  intros Hn.
  destruct (bp_remove_from_ctx bp ctx) as [[r bp'] ctx'] eqn:H.
  destruct (bp_remove_from_ctx_spec _ _ _ _ _ H)
    as [[_ [-> [-> ->]]] | [Hi _]]; [reflexivity | contradiction].
Qed.

(** C6 (as amended): for a descriptor with no slot ([index] outside
    [0..3]), [bp_disable] fails without writing any thread context and
    leaves the thread's registers unchanged; the check is made in the
    mutation step, so when the handle, suspend and context-read steps
    succeed the calls are exactly: open the handle, suspend, read the
    context, resume, close the handle; and the descriptor keeps its
    index while [enabled] is left as it was or cleared. For any descriptor,
    a successful [bp_disable] leaves [index = -1] and [enabled = false]. *)
Theorem bp_disable_slot_check (f : Faults) (tid : Z) (ctx : CONTEXT) (bp : HWBP) :
  (~ (0 <= index bp <= 3) ->
   forall r bp' s', run (bp_disable bp) (mk_OS f tid ctx []) = ((r, bp'), s') ->
   r = false /\ os_ctx s' = ctx /\ count is_set_context (os_log s') = 0%nat /\
   index bp' = index bp /\ (enabled bp' = enabled bp \/ enabled bp' = false) /\
   (open_fails f = false -> suspend_fails f = false -> get_context_fails f = false ->
    tid = threadId bp ->
    rev (os_log s') = [EvOpenThread true; EvSuspendThread true; EvGetThreadContext true;
                       EvResumeThread; EvCloseHandle])) /\
  (forall bp' s', run (bp_disable bp) (mk_OS f tid ctx []) = ((true, bp'), s') ->
   index bp' = -1 /\ enabled bp' = false).
Proof.
  split.
  - intros Hn r bp' s'.
    pose proof (bp_remove_from_ctx_unassigned bp ctx Hn) as Hrem.
    destruct f as [[] [] [] []]; run_txn;
      destruct (Z.eqb_spec (threadId bp) tid); cbn -[bp_remove_from_ctx];
      rewrite ?Hrem; cbn; intros H; injection H as <- <- <-; cbn;
      (repeat split; auto; intros; try discriminate; try (exfalso; lia); reflexivity).
  - intros bp' s' H.
    destruct (bp_disable_true _ _ _ _ H) as [b1 [c1 [Hrem [-> _]]]].
    destruct (bp_remove_from_ctx_spec _ _ _ _ _ Hrem)
      as [[_ [? _]] | [_ [_ [-> _]]]]; [discriminate|].
    split; reflexivity.
Qed.

Lemma bp_disable_slot_check_witness :
  let r := run (bp_disable bp_ex) (os_ex no_faults 0) in
  let r' := run (bp_disable (set_index bp_ex 2)) (os_ex no_faults 0) in
  (fst (fst r) = false /\ os_ctx (snd r) = set_Dr7 CONTEXT_zero 0 /\
   count is_set_context (os_log (snd r)) = 0%nat /\
   index (snd (fst r)) = index bp_ex /\
   (enabled (snd (fst r)) = enabled bp_ex \/ enabled (snd (fst r)) = false) /\
   (open_fails no_faults = false -> suspend_fails no_faults = false ->
    get_context_fails no_faults = false -> 7 = threadId bp_ex ->
    rev (os_log (snd r)) = [EvOpenThread true; EvSuspendThread true; EvGetThreadContext true;
                            EvResumeThread; EvCloseHandle])) /\
  (index (snd (fst r')) = -1 /\ enabled (snd (fst r')) = false).
Proof.
  intros r r'. split.
  - apply (proj1 (bp_disable_slot_check no_faults 7 (set_Dr7 CONTEXT_zero 0) bp_ex));
      [simpl; lia | reflexivity].
  - apply (proj2 (bp_disable_slot_check no_faults 7 (set_Dr7 CONTEXT_zero 0)
                    (set_index bp_ex 2)) _ (snd r')).
    reflexivity.
Defined.

(** C6 as stated fails: [bp_disable] on a descriptor that has no slot
    ([index = -1]) acquires the handle, suspends the thread and reads its
    context before it fails. *)
Lemma disable_unassigned_suspends_cex :
  index bp_ex = -1 /\
  fst (fst (run (bp_disable bp_ex) (os_ex no_faults 0))) = false /\
  os_log (snd (run (bp_disable bp_ex) (os_ex no_faults 0))) =
    [EvCloseHandle; EvResumeThread; EvGetThreadContext true;
     EvSuspendThread true; EvOpenThread true].
Proof. repeat split. Qed.

(** C5 (failing run): [bp_enable] on a fresh descriptor whose thread's
    [SetThreadContext] fails returns [FALSE], but [bp_add_to_ctx] has
    already stored the slot ([bp->index = 0]) in the descriptor. *)
Theorem enable_write_failure_keeps_index :
  index bp_ex = -1 /\
  fst (run (bp_enable bp_ex) (os_ex (mk_Faults false false false true) 0)) =
    (false, set_index bp_ex 0) /\
  set_index bp_ex 0 <> bp_ex.
Proof.
  split; [reflexivity|]. split; [reflexivity|].
  intros H. apply (f_equal index) in H. discriminate.
Qed.

(** C7 (failing run): [bp_init] establishes the invariant, but the run of
    [enable_write_failure_keeps_index] leaves a descriptor with a slot
    ([index = 0]) that is not enabled. *)
Theorem enable_write_failure_breaks_invariant :
  hwbp_inv bp_ex /\
  ~ hwbp_inv (snd (fst (run (bp_enable bp_ex)
                          (os_ex (mk_Faults false false false true) 0)))).
Proof.
  unfold hwbp_inv. split.
  - simpl. tauto.
  - vm_compute. intros [_ H]. specialize (H eq_refl). discriminate.
Qed.

(* ------------------------------------------------------------------ *)
(** ** Further properties of the code *)

Lemma get_field_lor a b off w :
  0 <= off -> 0 <= w ->
  get_field (Z.lor a b) off w = Z.lor (get_field a off w) (get_field b off w).
Proof.
  intros Hoff Hw. apply Z.bits_inj'. intros n Hn.
  rewrite Z.lor_spec, !testbit_get_field, Z.lor_spec by lia.
  destruct (n <? w); reflexivity.
Qed.

Lemma get_field_place_same v off w :
  0 <= off -> 0 <= v < 2 ^ w -> get_field (place v off w) off w = v.
Proof.
  intros Hoff Hv. assert (Hw : 0 <= w).
  { destruct (Z.ltb_spec w 0); [rewrite Z.pow_neg_r in Hv by lia; lia | lia]. }
  apply Z.bits_inj'. intros n Hn.
  rewrite testbit_get_field, testbit_place by lia.
  replace (n + off - off) with n by lia.
  destruct (Z.ltb_spec n w), (Z.leb_spec off (n + off)), (Z.ltb_spec (n + off) (off + w));
    simpl; try lia; try reflexivity.
  symmetry. rewrite <- (Z.mod_small v (2 ^ w)) by lia.
  apply Z.mod_pow2_bits_high. lia.
Qed.

Lemma get_field_place_disjoint v off w off' w' :
  0 <= off -> 0 <= w -> 0 <= off' -> 0 <= w' ->
  (off + w <= off' \/ off' + w' <= off) ->
  get_field (place v off' w') off w = 0.
Proof.
  intros H1 H2 H3 H4 Hd. apply Z.bits_inj'. intros n Hn.
  rewrite testbit_get_field, testbit_place, Z.testbit_0_l by lia.
  destruct (Z.ltb_spec n w), (Z.leb_spec off' (n + off)), (Z.ltb_spec (n + off) (off' + w'));
    simpl; try reflexivity; lia.
Qed.

Ltac field_roundtrip :=
  rewrite !get_field_lor by lia;
  repeat match goal with
  | |- context [get_field (place ?f ?off ?w) ?off ?w] =>
      rewrite (get_field_place_same f off w) by lia
  end;
  rewrite !get_field_place_disjoint by lia;
  rewrite ?Z.lor_0_l, ?Z.lor_0_r; reflexivity.

(** Writing every member of a [dr7] struct view (each within its width)
    and reading the union back gives the same members: the struct view
    round-trips through [flags]. *)
Theorem dr7_decode_encode (r : dr7_struct) :
  dr7_struct_wf r -> dr7_decode (dr7_encode r) = r.
Proof.
  destruct r; unfold dr7_struct_wf; cbn [local_breakpoint_0 global_breakpoint_0
    local_breakpoint_1 global_breakpoint_1 local_breakpoint_2 global_breakpoint_2
    local_breakpoint_3 global_breakpoint_3 local_exact_breakpoint global_exact_breakpoint
    reserved1 restricted_transactional_memory reserved2 general_detect reserved3
    read_write_0 length_0 read_write_1 length_1 read_write_2 length_2
    read_write_3 length_3 reserved4].
  intros H; decompose [and] H; clear H.
  unfold dr7_decode, dr7_encode; cbn [local_breakpoint_0 global_breakpoint_0
    local_breakpoint_1 global_breakpoint_1 local_breakpoint_2 global_breakpoint_2
    local_breakpoint_3 global_breakpoint_3 local_exact_breakpoint global_exact_breakpoint
    reserved1 restricted_transactional_memory reserved2 general_detect reserved3
    read_write_0 length_0 read_write_1 length_1 read_write_2 length_2
    read_write_3 length_3 reserved4].
  field_roundtrip.
Qed.

Lemma dr7_decode_encode_witness :
  dr7_struct_wf (dr7_decode 0) /\ dr7_decode (dr7_encode (dr7_decode 0)) = dr7_decode 0.
Proof.
  assert (H : dr7_struct_wf (dr7_decode 0)) by (vm_compute; repeat split; discriminate).
  split; [exact H | apply dr7_decode_encode; exact H].
Defined.

(** The [dr6] union: reading the struct members of a 64-bit [flags] word
    and writing them back gives the word. *)
Theorem dr6_encode_decode (x : Z) :
  0 <= x < 2 ^ 64 -> DR6.dr6_encode (DR6.dr6_decode x) = x.
Proof.
  intros Hx. apply Z.bits_inj'. intros n Hn.
  unfold DR6.dr6_encode, DR6.dr6_decode.
  cbn [DR6.breakpoint_condition DR6.reserved1 DR6.debug_register_access_detected
    DR6.single_instruction DR6.task_switch DR6.restricted_transactional_memory
    DR6.reserved2].
  rewrite !Z.lor_spec, !testbit_place_get by lia.
  destruct (Z.testbit x n) eqn:E.
  - assert (Hlt : n < 64).
    { destruct (Z.ltb_spec n 64); auto.
      rewrite testbit_out_of_range in E by lia. discriminate. }
    clear E. revert n Hn Hlt. intros n Hn Hlt.
    pattern n. apply below_64_cases; [|lia].
    intros k Hk. do 64 (destruct k as [|k]; [reflexivity|]). lia.
  - rewrite !andb_false_r. reflexivity.
Qed.

Lemma dr6_encode_decode_witness :
  0 <= 4294901760 < 2 ^ 64 /\
  DR6.dr6_encode (DR6.dr6_decode 4294901760) = 4294901760.
Proof. split; [lia|]. apply dr6_encode_decode. lia. Defined.

(** The [dr6] struct view (each member within its width) round-trips
    through [flags]. *)
Theorem dr6_decode_encode (r : DR6.dr6_struct) :
  DR6.dr6_struct_wf r -> DR6.dr6_decode (DR6.dr6_encode r) = r.
Proof.
  destruct r; unfold DR6.dr6_struct_wf;
  cbn [DR6.breakpoint_condition DR6.reserved1 DR6.debug_register_access_detected
    DR6.single_instruction DR6.task_switch DR6.restricted_transactional_memory
    DR6.reserved2].
  intros H; decompose [and] H; clear H.
  unfold DR6.dr6_decode, DR6.dr6_encode;
  cbn [DR6.breakpoint_condition DR6.reserved1 DR6.debug_register_access_detected
    DR6.single_instruction DR6.task_switch DR6.restricted_transactional_memory
    DR6.reserved2].
  field_roundtrip.
Qed.

Lemma dr6_decode_encode_witness :
  DR6.dr6_struct_wf (DR6.dr6_decode 16385) /\
  DR6.dr6_decode (DR6.dr6_encode (DR6.dr6_decode 16385)) = DR6.dr6_decode 16385.
Proof.
  assert (H : DR6.dr6_struct_wf (DR6.dr6_decode 16385))
    by (vm_compute; repeat split; discriminate).
  split; [exact H | apply dr6_decode_encode; exact H].
Defined.

(** [bp_enable] and [bp_disable] call the primitives in bracket order:
    the handle is opened first; the thread's context is read and written
    only between a successful suspend and the resume; the thread is resumed
    before the handle is closed; and closing the handle is the last call
    whenever the handle was opened. *)
Theorem transaction_call_order (f : Faults) (tid : Z) (ctx : CONTEXT) (bp : HWBP) :
  bracket_final (rev (os_log (snd (run (bp_enable bp) (mk_OS f tid ctx []))))) = BClosed /\
  bracket_final (rev (os_log (snd (run (bp_disable bp) (mk_OS f tid ctx []))))) = BClosed.
Proof.
  destruct f as [[] [] [] []]; run_txn;
  destruct (threadId bp =? tid); cbn -[bp_add_to_ctx bp_remove_from_ctx];
  destruct (bp_add_to_ctx bp ctx) as [[[] bp1] ctx1];
  destruct (bp_remove_from_ctx bp ctx) as [[[] bp2] ctx2];
  split; reflexivity.
Qed.

(** A failed [bp_enable] or [bp_disable] leaves the thread's debug
    registers as they were: the only write is [SetThreadContext], which is
    all-or-nothing and is the last step that can fail. *)
Theorem failed_call_keeps_registers (bp : HWBP) (s : OS) :
  (forall bp' s', run (bp_enable bp) s = ((false, bp'), s') -> os_ctx s' = os_ctx s) /\
  (forall bp' s', run (bp_disable bp) s = ((false, bp'), s') -> os_ctx s' = os_ctx s).
Proof.
  destruct s as [[[] [] [] []] tid ctx log]; run_txn;
  destruct (threadId bp =? tid); cbn -[bp_add_to_ctx bp_remove_from_ctx];
  destruct (bp_add_to_ctx bp ctx) as [[[] bp1] ctx1];
  destruct (bp_remove_from_ctx bp ctx) as [[[] bp2] ctx2];
  split; cbn; intros bp' s' H; try discriminate H; injection H as _ <-; reflexivity.
Qed.

Lemma failed_call_keeps_registers_witness :
  os_ctx (snd (run (bp_enable bp_ex) (os_ex (mk_Faults false false false true) 0))) =
    os_ctx (os_ex (mk_Faults false false false true) 0) /\
  os_ctx (snd (run (bp_disable bp_ex) (os_ex no_faults 0))) = os_ctx (os_ex no_faults 0).
Proof.
  split.
  - apply (proj1 (failed_call_keeps_registers bp_ex (os_ex (mk_Faults false false false true) 0))
             (snd (fst (run (bp_enable bp_ex) (os_ex (mk_Faults false false false true) 0))))).
    reflexivity.
  - apply (proj2 (failed_call_keeps_registers bp_ex (os_ex no_faults 0))
             (snd (fst (run (bp_disable bp_ex) (os_ex no_faults 0))))).
    reflexivity.
Defined.

Lemma get_free_index_all_set x :
  (forall i, 0 <= i <= 3 -> Z.testbit x (off_local_breakpoint i) = true) ->
  get_free_index x = -1.
Proof.
  intros H. rewrite get_free_index_bits.
  rewrite (H 0), (H 1), (H 2), (H 3) by lia. reflexivity.
Qed.

(** When the four local-enable bits of the thread's [Dr7] are all set,
    [bp_enable] fails (whatever the primitives do) and leaves both the
    descriptor and the thread's registers unchanged. *)
Theorem enable_exhausted (bp : HWBP) (s : OS) :
  (forall i, 0 <= i <= 3 -> Z.testbit (Dr7 (os_ctx s)) (off_local_breakpoint i) = true) ->
  forall r bp' s', run (bp_enable bp) s = ((r, bp'), s') ->
  r = false /\ bp' = bp /\ os_ctx s' = os_ctx s.
Proof.
  intros Hfull r bp' s'.
  assert (Hadd : bp_add_to_ctx bp (os_ctx s) = (false, bp, os_ctx s)).
  { unfold bp_add_to_ctx. rewrite (get_free_index_all_set _ Hfull). reflexivity. }
  destruct s as [[[] [] [] []] tid ctx log]; cbn in Hadd; run_txn;
  destruct (threadId bp =? tid); cbn -[bp_add_to_ctx]; rewrite ?Hadd; cbn;
  intros H; injection H as <- <- <-; auto.
Qed.

Lemma enable_exhausted_witness :
  let s := os_ex no_faults 85 in
  fst (fst (run (bp_enable bp_ex) s)) = false /\
  snd (fst (run (bp_enable bp_ex) s)) = bp_ex /\
  os_ctx (snd (run (bp_enable bp_ex) s)) = os_ctx s.
Proof.
  intros s.
  apply (enable_exhausted bp_ex s);
    [ intros i Hi; slot_cases i; reflexivity | reflexivity ].
Defined.

Lemma local_bit_after_add x i len rw j :
  0 <= i <= 3 -> 0 <= j <= 3 ->
  Z.testbit
    (set_field (set_field (set_field x
       (off_local_breakpoint i) 1 1) (off_length i) 2 len) (off_read_write i) 2 rw)
    (off_local_breakpoint j) =
  (j =? i) || Z.testbit x (off_local_breakpoint j).
Proof.
  intros Hi Hj. rewrite testbit_set_slot by (unfold off_local_breakpoint; lia).
  slot_cases i; slot_cases j; reflexivity.
Qed.

Lemma enable_step bp s :
  os_faults s = no_faults -> os_thread_id s = threadId bp ->
  0 <= get_free_index (Dr7 (os_ctx s)) <= 3 ->
  fst (fst (run (bp_enable bp) s)) = true /\
  index (snd (fst (run (bp_enable bp) s))) = get_free_index (Dr7 (os_ctx s)) /\
  os_faults (snd (run (bp_enable bp) s)) = no_faults /\
  os_thread_id (snd (run (bp_enable bp) s)) = os_thread_id s /\
  (forall j, 0 <= j <= 3 ->
     Z.testbit (Dr7 (os_ctx (snd (run (bp_enable bp) s)))) (off_local_breakpoint j) =
     (j =? get_free_index (Dr7 (os_ctx s))) ||
     Z.testbit (Dr7 (os_ctx s)) (off_local_breakpoint j)).
Proof.
  destruct s as [f tid ctx log]; cbn [os_faults os_thread_id os_ctx];
  intros -> -> Hi.
  destruct (bp_add_to_ctx bp ctx) as [[r bp1] ctx1] eqn:E.
  pose proof (bp_add_to_ctx_spec _ _ _ _ _ E) as S; cbv zeta in S.
  destruct S as [(Hm & _) | (_ & -> & -> & HD & _)]; [lia |].
  run_txn. rewrite Z.eqb_refl. cbn -[bp_add_to_ctx]. rewrite E. cbn.
  repeat split; try reflexivity.
  intros j Hj. rewrite HD. apply local_bit_after_add; lia.
Qed.

Lemma enable_step_full bp s :
  os_faults s = no_faults -> os_thread_id s = threadId bp ->
  (forall i, 0 <= i <= 3 -> Z.testbit (Dr7 (os_ctx s)) (off_local_breakpoint i) = true) ->
  fst (fst (run (bp_enable bp) s)) = false /\
  os_ctx (snd (run (bp_enable bp) s)) = os_ctx s.
Proof.
  intros _ _ Hfull.
  assert (Hadd : bp_add_to_ctx bp (os_ctx s) = (false, bp, os_ctx s)).
  { unfold bp_add_to_ctx. rewrite (get_free_index_all_set _ Hfull). reflexivity. }
  destruct s as [[[] [] [] []] tid ctx log]; cbn in Hadd; run_txn;
  destruct (threadId bp =? tid); cbn -[bp_add_to_ctx]; rewrite ?Hadd; cbn; auto.
Qed.

(** On a thread whose four local-enable bits are clear, with every
    primitive succeeding, four successive [bp_enable] calls (for any
    descriptors of that thread) take slots 0, 1, 2 and 3 in that order, and
    a fifth fails without touching the thread's registers. *)
Theorem enable_fills_slots_in_order (b0 b1 b2 b3 b4 : HWBP) (s : OS) :
  os_faults s = no_faults ->
  threadId b0 = os_thread_id s -> threadId b1 = os_thread_id s ->
  threadId b2 = os_thread_id s -> threadId b3 = os_thread_id s ->
  threadId b4 = os_thread_id s ->
  (forall i, 0 <= i <= 3 -> Z.testbit (Dr7 (os_ctx s)) (off_local_breakpoint i) = false) ->
  let r0 := run (bp_enable b0) s in
  let r1 := run (bp_enable b1) (snd r0) in
  let r2 := run (bp_enable b2) (snd r1) in
  let r3 := run (bp_enable b3) (snd r2) in
  let r4 := run (bp_enable b4) (snd r3) in
  map (fun r => fst (fst r)) [r0; r1; r2; r3; r4] = [true; true; true; true; false] /\
  map (fun r => index (snd (fst r))) [r0; r1; r2; r3] = [0; 1; 2; 3] /\
  os_ctx (snd r4) = os_ctx (snd r3).
Proof.
  intros Hf T0 T1 T2 T3 T4 Hfree. cbv zeta.
  assert (G0 : get_free_index (Dr7 (os_ctx s)) = 0)
    by (rewrite get_free_index_bits, !Hfree by lia; reflexivity).
  destruct (enable_step b0 s Hf (eq_sym T0) ltac:(lia)) as (A0 & I0 & F0 & H0 & B0).
  rewrite G0 in I0, B0.
  set (r0 := run (bp_enable b0) s) in *.
  assert (G1 : get_free_index (Dr7 (os_ctx (snd r0))) = 1)
    by (rewrite get_free_index_bits, !B0, !Hfree by lia; reflexivity).
  destruct (enable_step b1 (snd r0) F0 ltac:(congruence) ltac:(lia))
    as (A1 & I1 & F1 & H1 & B1).
  rewrite G1 in I1, B1.
  set (r1 := run (bp_enable b1) (snd r0)) in *.
  assert (G2 : get_free_index (Dr7 (os_ctx (snd r1))) = 2)
    by (rewrite get_free_index_bits, !B1, !B0, !Hfree by lia; reflexivity).
  destruct (enable_step b2 (snd r1) F1 ltac:(congruence) ltac:(lia))
    as (A2 & I2 & F2 & H2 & B2).
  rewrite G2 in I2, B2.
  set (r2 := run (bp_enable b2) (snd r1)) in *.
  assert (G3 : get_free_index (Dr7 (os_ctx (snd r2))) = 3)
    by (rewrite get_free_index_bits, !B2, !B1, !B0, !Hfree by lia; reflexivity).
  destruct (enable_step b3 (snd r2) F2 ltac:(congruence) ltac:(lia))
    as (A3 & I3 & F3 & H3 & B3).
  rewrite G3 in I3, B3.
  set (r3 := run (bp_enable b3) (snd r2)) in *.
  destruct (enable_step_full b4 (snd r3) F3 ltac:(congruence)) as (A4 & C4).
  { intros i Hi. rewrite B3, B2, B1, B0, Hfree by lia. slot_cases i; reflexivity. }
  cbn [map]. rewrite A0, A1, A2, A3, A4, I0, I1, I2, I3, C4. auto.
Qed.

Lemma enable_fills_slots_in_order_witness :
  let s := os_ex no_faults 0 in
  let r0 := run (bp_enable bp_ex) s in
  let r1 := run (bp_enable bp_ex) (snd r0) in
  let r2 := run (bp_enable bp_ex) (snd r1) in
  let r3 := run (bp_enable bp_ex) (snd r2) in
  let r4 := run (bp_enable bp_ex) (snd r3) in
  map (fun r => fst (fst r)) [r0; r1; r2; r3; r4] = [true; true; true; true; false] /\
  map (fun r => index (snd (fst r))) [r0; r1; r2; r3] = [0; 1; 2; 3] /\
  os_ctx (snd r4) = os_ctx (snd r3).
Proof.
  apply (enable_fills_slots_in_order bp_ex bp_ex bp_ex bp_ex bp_ex (os_ex no_faults 0));
    try reflexivity.
  intros i Hi; slot_cases i; reflexivity.
Defined.

(** Enabling a descriptor that already holds slot [k] (its local-enable bit
    set in the thread's [Dr7]) does not reuse that slot: a successful
    [bp_enable] moves the descriptor to another slot and leaves the
    local-enable bit of slot [k] set, so slot [k] stays occupied with no
    descriptor recording it. *)
Theorem enable_twice_leaks_slot (bp : HWBP) (s : OS) bp' s' :
  0 <= index bp <= 3 ->
  Z.testbit (Dr7 (os_ctx s)) (off_local_breakpoint (index bp)) = true ->
  run (bp_enable bp) s = ((true, bp'), s') ->
  index bp' <> index bp /\
  Z.testbit (Dr7 (os_ctx s')) (off_local_breakpoint (index bp)) = true.
Proof.
  intros Hk Hset Hrun.
  destruct (bp_enable_true _ _ _ _ Hrun) as (bp1 & ctx1 & Hadd & -> & -> & _).
  pose proof (bp_add_to_ctx_spec _ _ _ _ _ Hadd) as S; cbv zeta in S.
  destruct S as [(_ & Hf & _) | (Hi & _ & -> & HD & _)]; [discriminate |].
  pose proof (get_free_index_free_bit _ Hi) as Hfree.
  assert (Hne : get_free_index (Dr7 (os_ctx s)) <> index bp)
    by (intros E; rewrite E, Hset in Hfree; discriminate).
  split; [exact Hne |].
  rewrite HD, local_bit_after_add by lia. rewrite Hset, orb_true_r. reflexivity.
Qed.

Lemma enable_twice_leaks_slot_witness :
  let bp := set_enabled (set_index bp_ex 0) true in
  let s := os_ex no_faults 1 in
  0 <= index bp <= 3 /\
  Z.testbit (Dr7 (os_ctx s)) (off_local_breakpoint (index bp)) = true /\
  index (snd (fst (run (bp_enable bp) s))) <> index bp /\
  Z.testbit (Dr7 (os_ctx (snd (run (bp_enable bp) s)))) (off_local_breakpoint (index bp)) = true.
Proof.
  cbv zeta.
  split; [cbn; lia |]. split; [reflexivity |].
  apply (enable_twice_leaks_slot (set_enabled (set_index bp_ex 0) true) (os_ex no_faults 1)).
  - cbn; lia.
  - reflexivity.
  - reflexivity.
Defined.

(** [bp_create] returns a descriptor with [index = -1] and [enabled = 0];
    from such a descriptor (or any with [index] in 0..3 and [enabled]
    set), [bp_enable] and [bp_disable] keep [index = -1] equivalent to
    [!enabled] and [index] within [-1] or 0..3 whenever [SetThreadContext]
    does not fail; the one way to break it is the write failure of C5. *)
Theorem hwbp_ok_preserved :
  (forall malloc_ok lpTarget tid rw len bp,
     bp_create malloc_ok lpTarget tid rw len = Some bp -> hwbp_ok bp) /\
  (forall bp s r bp' s',
     hwbp_ok bp -> set_context_fails (os_faults s) = false ->
     run (bp_enable bp) s = ((r, bp'), s') -> hwbp_ok bp') /\
  (forall bp s r bp' s',
     hwbp_ok bp -> set_context_fails (os_faults s) = false ->
     run (bp_disable bp) s = ((r, bp'), s') -> hwbp_ok bp').
Proof.
  split; [| split].
  - intros [] lpTarget tid rw len bp H; cbn in H; [| discriminate].
    injection H as <-. unfold hwbp_ok, hwbp_inv; cbn. intuition.
  - intros bp [[o su g se] tid ctx log] r bp' s' Hok Hse; cbn in Hse; subst se.
    destruct (bp_add_to_ctx bp ctx) as [[a bp1] ctx1] eqn:E.
    pose proof (bp_add_to_ctx_spec _ _ _ _ _ E) as S; cbv zeta in S.
    destruct o, su, g; run_txn;
      destruct (threadId bp =? tid); cbn -[bp_add_to_ctx];
      try (intros H; injection H as _ <- _; exact Hok);
      rewrite E; destruct S as [(_ & -> & -> & _) | (Hi & -> & -> & _)]; cbn;
      intros H; injection H as _ <- _;
      first [ exact Hok
            | unfold hwbp_ok, hwbp_inv; cbn; split; [split; [intros; lia | discriminate] | lia] ].
  - intros bp [[o su g se] tid ctx log] r bp' s' Hok Hse; cbn in Hse; subst se.
    destruct (bp_remove_from_ctx bp ctx) as [[a bp1] ctx1] eqn:E.
    pose proof (bp_remove_from_ctx_spec _ _ _ _ _ E) as S; cbv zeta in S.
    destruct o, su, g; run_txn;
      destruct (threadId bp =? tid); cbn -[bp_remove_from_ctx];
      try (intros H; injection H as _ <- _; exact Hok);
      rewrite E; destruct S as [(Hi & -> & -> & _) | (Hi & -> & -> & _)]; cbn;
      intros H; injection H as _ <- _;
      unfold hwbp_ok, hwbp_inv in *; cbn;
      first [ tauto
            | destruct Hok as [_ [Hm | Hm]]; [split; [tauto | left; exact Hm] | tauto] ].
Qed.

Lemma hwbp_ok_preserved_witness :
  let r1 := run (bp_enable bp_ex) (os_ex no_faults 0) in
  let r2 := run (bp_disable (snd (fst r1))) (snd r1) in
  hwbp_ok bp_ex /\ hwbp_ok (snd (fst r1)) /\ hwbp_ok (snd (fst r2)).
Proof.
  cbv zeta.
  assert (H0 : hwbp_ok bp_ex)
    by (apply (proj1 hwbp_ok_preserved true 4096 7 DATA_WRITEONLY FOUR_BYTE); reflexivity).
  assert (H1 : hwbp_ok (snd (fst (run (bp_enable bp_ex) (os_ex no_faults 0))))).
  { apply (proj1 (proj2 hwbp_ok_preserved) bp_ex (os_ex no_faults 0)
             (fst (fst (run (bp_enable bp_ex) (os_ex no_faults 0)))) _
             (snd (run (bp_enable bp_ex) (os_ex no_faults 0)))); [exact H0 | reflexivity | reflexivity]. }
  split; [exact H0 | split; [exact H1 |]].
  apply (proj2 (proj2 hwbp_ok_preserved) (snd (fst (run (bp_enable bp_ex) (os_ex no_faults 0))))
           (snd (run (bp_enable bp_ex) (os_ex no_faults 0)))
           (fst (fst (run (bp_disable (snd (fst (run (bp_enable bp_ex) (os_ex no_faults 0)))))
                        (snd (run (bp_enable bp_ex) (os_ex no_faults 0))))))
           _
           (snd (run (bp_disable (snd (fst (run (bp_enable bp_ex) (os_ex no_faults 0)))))
                   (snd (run (bp_enable bp_ex) (os_ex no_faults 0))))));
    [exact H1 | reflexivity | reflexivity].
Defined.

(** A successful [bp_enable] programs the slot it reports: the slot's
    address register holds [lpTarget], its local-enable bit is set, and its
    type field holds the [BP_READ_WRITE] code (instruction execution 0, write 1,
    I/O 2, read/write 3). *)
Theorem enable_programs_slot (bp : HWBP) (s : OS) bp' s' :
  run (bp_enable bp) s = ((true, bp'), s') ->
  let i := index bp' in
  0 <= i <= 3 /\ enabled bp' = true /\
  dr_addr i (os_ctx s') = target bp /\
  Z.testbit (Dr7 (os_ctx s')) (off_local_breakpoint i) = true /\
  get_field (Dr7 (os_ctx s')) (off_read_write i) 2 = BP_READ_WRITE_val (read_write bp) /\
  map BP_READ_WRITE_val [INSTRUCTION_EXECUTION; DATA_WRITEONLY; IO_READWRITE; DATA_READWRITE] = [0; 1; 2; 3].
Proof.
  intros Hrun.
  destruct (bp_enable_true _ _ _ _ Hrun) as (bp1 & ctx1 & Hadd & -> & -> & _).
  pose proof (bp_add_to_ctx_spec _ _ _ _ _ Hadd) as S; cbv zeta in S.
  destruct S as [(_ & Hf & _) | (Hi & _ & -> & HD & HA & _)]; [discriminate |].
  cbv zeta; cbn [index enabled set_enabled set_index].
  pose proof (BP_READ_WRITE_val_range (read_write bp)) as Hrw.
  pose proof (BP_LENGTH_val_range (length bp)) as Hlen.
  destruct (get_field_set_slot (Dr7 (os_ctx s)) (get_free_index (Dr7 (os_ctx s))) 1
              (BP_LENGTH_val (length bp)) (BP_READ_WRITE_val (read_write bp)) Hi Hlen Hrw)
    as [_ Hget].
  repeat split; try lia; try reflexivity; try exact HA.
  - rewrite HD, local_bit_after_add by lia. rewrite Z.eqb_refl. reflexivity.
  - rewrite HD. exact Hget.
Qed.

Lemma enable_programs_slot_witness :
  let r := run (bp_enable bp_ex) (os_ex no_faults 0) in
  let i := index (snd (fst r)) in
  0 <= i <= 3 /\ enabled (snd (fst r)) = true /\
  dr_addr i (os_ctx (snd r)) = target bp_ex /\
  Z.testbit (Dr7 (os_ctx (snd r))) (off_local_breakpoint i) = true /\
  get_field (Dr7 (os_ctx (snd r))) (off_read_write i) 2 = BP_READ_WRITE_val (read_write bp_ex) /\
  map BP_READ_WRITE_val [INSTRUCTION_EXECUTION; DATA_WRITEONLY; IO_READWRITE; DATA_READWRITE] = [0; 1; 2; 3].
Proof.
  apply (enable_programs_slot bp_ex (os_ex no_faults 0)
           (snd (fst (run (bp_enable bp_ex) (os_ex no_faults 0))))
           (snd (run (bp_enable bp_ex) (os_ex no_faults 0)))).
  reflexivity.
Defined.

(** A successful [bp_disable] clears the slot the descriptor held: its
    address register is 0 and its local-enable bit, length field and type
    field are all 0 in the thread's [Dr7]; the descriptor comes back with
    [index = -1] and [enabled = 0]. *)
Theorem disable_clears_slot (bp : HWBP) (s : OS) bp' s' :
  run (bp_disable bp) s = ((true, bp'), s') ->
  let i := index bp in
  0 <= i <= 3 /\ index bp' = -1 /\ enabled bp' = false /\
  dr_addr i (os_ctx s') = 0 /\
  Z.testbit (Dr7 (os_ctx s')) (off_local_breakpoint i) = false /\
  get_field (Dr7 (os_ctx s')) (off_length i) 2 = 0 /\
  get_field (Dr7 (os_ctx s')) (off_read_write i) 2 = 0.
Proof.
  intros Hrun.
  destruct (bp_disable_true _ _ _ _ Hrun) as (bp1 & ctx1 & Hrem & -> & ->).
  pose proof (bp_remove_from_ctx_spec _ _ _ _ _ Hrem) as S; cbv zeta in S.
  destruct S as [(_ & Hf & _) | (Hi & _ & -> & HD & HA & _)]; [discriminate |].
  cbv zeta; cbn [index enabled set_enabled set_index].
  destruct (get_field_set_slot (Dr7 (os_ctx s)) (index bp) 0 0 0 Hi
              ltac:(lia) ltac:(lia)) as [Hl Hr].
  repeat split; try lia; try reflexivity; try exact HA.
  - rewrite HD, testbit_set_slot by (unfold off_local_breakpoint; lia).
    rewrite Z.eqb_refl. reflexivity.
  - rewrite HD. exact Hl.
  - rewrite HD. exact Hr.
Qed.

Lemma disable_clears_slot_witness :
  let r1 := run (bp_enable bp_ex) (os_ex no_faults 0) in
  let r2 := run (bp_disable (snd (fst r1))) (snd r1) in
  let i := index (snd (fst r1)) in
  0 <= i <= 3 /\ index (snd (fst r2)) = -1 /\ enabled (snd (fst r2)) = false /\
  dr_addr i (os_ctx (snd r2)) = 0 /\
  Z.testbit (Dr7 (os_ctx (snd r2))) (off_local_breakpoint i) = false /\
  get_field (Dr7 (os_ctx (snd r2))) (off_length i) 2 = 0 /\
  get_field (Dr7 (os_ctx (snd r2))) (off_read_write i) 2 = 0.
Proof.
  apply (disable_clears_slot (snd (fst (run (bp_enable bp_ex) (os_ex no_faults 0))))
           (snd (run (bp_enable bp_ex) (os_ex no_faults 0)))
           (snd (fst (run (bp_disable (snd (fst (run (bp_enable bp_ex) (os_ex no_faults 0)))))
                         (snd (run (bp_enable bp_ex) (os_ex no_faults 0))))))
           (snd (run (bp_disable (snd (fst (run (bp_enable bp_ex) (os_ex no_faults 0)))))
                   (snd (run (bp_enable bp_ex) (os_ex no_faults 0)))))).
  reflexivity.
Defined.
